(** * Collection creation and management (src/collection.ts)

    A shallow embedding of the collection module: the session builder
    [initializeMetaplex], the four thin wrappers around the Metaplex SDK
    ([uploadCollectionMetadata], [createCollection], [verifyCollection],
    [updateCollectionMetadata]) and the example workflow
    [exampleCreateCollection].

    The module owns no algorithm: every step is one awaited call into an
    external collaborator (the SDK, the file system, the console).  The
    embedding therefore keeps the calls symbolic.  A program is a finite tree
    of external calls, and it is run against a test double that answers each
    call with a value or with a thrown error; the run yields the outcome, the
    final state of the double and the log of what was printed and called. *)

From Stdlib Require Import ZArith Lia.
From stdpp Require Import base option list strings pretty gmap.

Open Scope Z_scope.
Open Scope string_scope.

(** ** Values of @solana/web3.js *)

Record PublicKey := { toBase58 : string }.

Record Keypair := { publicKey : PublicKey; secretKey : list Z }.

(** A connection keeps the endpoint it was constructed for. *)
Record Connection := { rpcEndpoint : string }.

Global Instance PublicKey_eq_dec : EqDecision PublicKey.
Proof. solve_decision. Defined.

(** ** The Metaplex handle and its plugins *)

Module Bundlr.
Record Options := { address : string; providerUrl : string; timeout : Z }.
End Bundlr.

Inductive MetaplexPlugin :=
  | keypairIdentity (payer : Keypair)
  | bundlrStorage (options : Bundlr.Options).

Module Metaplex.
(** [identity] and [storage] are [None] while the SDK's default driver is
    installed. *)
Record t := {
  connection : Connection;
  identity : option Keypair;
  storage : option Bundlr.Options
}.

Definition make (c : Connection) : t :=
  {| connection := c; identity := None; storage := None |}.

Definition use (plugin : MetaplexPlugin) (m : t) : t :=
  match plugin with
  | keypairIdentity payer =>
      {| connection := connection m; identity := Some payer; storage := storage m |}
  | bundlrStorage options =>
      {| connection := connection m; identity := identity m; storage := Some options |}
  end.
End Metaplex.

(** ** Objects exchanged with the SDK

    JavaScript numbers are carried as integers: the module never computes
    with them, it only passes them on. *)

Module File.
Record t := { uri : string; type : string }.
End File.

Module MetadataCreator.
Record t := { address : string; share : Z }.
End MetadataCreator.

Module Properties.
Record t := {
  files : list File.t;
  category : string;
  creators : list MetadataCreator.t
}.
End Properties.

(** The [metadata] parameter of [uploadCollectionMetadata]. *)
Module Metadata.
Record t := {
  name : string;
  symbol : string;
  description : string;
  image : string;
  external_url : option string;
  seller_fee_basis_points : Z;
  properties : Properties.t
}.
End Metadata.

Module UploadMetadataOutput.
Record t := { uri : string; metadata : Metadata.t }.
End UploadMetadataOutput.

Module CreatorInput.
Record t := { address : PublicKey; share : Z }.
End CreatorInput.

(** The [collectionData] parameter of [createCollection]; the two fields
    marked [?] in the source are optional. *)
Module CollectionData.
Record t := {
  name : string;
  symbol : string;
  uri : string;
  sellerFeeBasisPoints : Z;
  creators : list CreatorInput.t;
  collection : option PublicKey;
  isMutable : option bool
}.

Definition with_collection (c : option PublicKey) (d : t) : t :=
  {| name := name d; symbol := symbol d; uri := uri d;
     sellerFeeBasisPoints := sellerFeeBasisPoints d;
     creators := creators d; collection := c; isMutable := isMutable d |}.
End CollectionData.

(** The input of [nfts().create]: the fields the module can set, plus the
    SDK's own optional [collection] (the parent collection of the mint). *)
Module CreateNftInput.
Record t := {
  name : string;
  symbol : string;
  uri : string;
  sellerFeeBasisPoints : Z;
  creators : list CreatorInput.t;
  isMutable : bool;
  isCollection : bool;
  collection : option PublicKey
}.
End CreateNftInput.

(** The record the SDK hands back for a mint. *)
Module Nft.
Record t := {
  address : PublicKey;
  name : string;
  symbol : string;
  uri : string;
  sellerFeeBasisPoints : Z;
  creators : list CreatorInput.t;
  isMutable : bool;
  isCollection : bool;
  collection : option (PublicKey * bool)
}.

Definition with_uri (u : string) (n : t) : t :=
  {| address := address n; name := name n; symbol := symbol n; uri := u;
     sellerFeeBasisPoints := sellerFeeBasisPoints n; creators := creators n;
     isMutable := isMutable n; isCollection := isCollection n;
     collection := collection n |}.
End Nft.

Module CreateNftOutput.
Record t := { nft : Nft.t }.
End CreateNftOutput.

Module VerifyNftCollectionInput.
Record t := { mintAddress : PublicKey; collectionMintAddress : PublicKey }.
End VerifyNftCollectionInput.

Module FindNftByMintInput.
Record t := { mintAddress : PublicKey }.
End FindNftByMintInput.

(** The input of [nfts().update]: the record read beforehand and the fields
    to overwrite; a field left out is [None]. *)
Module UpdateNftInput.
Record t := {
  nftOrSft : Nft.t;
  name : option string;
  symbol : option string;
  uri : option string;
  sellerFeeBasisPoints : option Z;
  creators : option (list CreatorInput.t);
  isMutable : option bool
}.
End UpdateNftInput.

(** What [JSON.parse] hands back: an array of numbers, or anything else. *)
Inductive JsValue :=
  | JsArray (items : list Z)
  | JsOther (text : string).

(** ** Thrown errors *)

(** Modelled from the spec: the module defines no error class of its own and
    has no [try], so an error is whatever a collaborator throws.  The kinds
    are the taxonomy of the spec's error-handling section; [RuntimeError]
    stands for the errors of the file system and of the decoders. *)
Inductive ErrorKind :=
  | ConfigurationError
  | ValidationError
  | PublishError (transient : bool)
  | LedgerError (transient : bool)
  | NotFoundError
  | RuntimeError.

Record Error := { kind : ErrorKind; detail : string }.

Global Instance ErrorKind_eq_dec : EqDecision ErrorKind.
Proof. solve_decision. Defined.

(** ** External calls *)

Inductive External :=
  | fs_readFileSync (path encoding : string)
  | JSON_parse (text : string)
  | Uint8Array_from (source : JsValue)
  | Keypair_fromSecretKey (secret : list Z)
  | nfts_uploadMetadata (metaplex : Metaplex.t) (input : Metadata.t)
  | nfts_create (metaplex : Metaplex.t) (input : CreateNftInput.t)
  | nfts_verifyCollection (metaplex : Metaplex.t) (input : VerifyNftCollectionInput.t)
  | nfts_findByMint (metaplex : Metaplex.t) (input : FindNftByMintInput.t)
  | nfts_update (metaplex : Metaplex.t) (input : UpdateNftInput.t).

(** The type of the value a call resolves to. *)
Definition Reply (c : External) : Type :=
  match c with
  | fs_readFileSync _ _ => string
  | JSON_parse _ => JsValue
  | Uint8Array_from _ => list Z
  | Keypair_fromSecretKey _ => Keypair
  | nfts_uploadMetadata _ _ => UploadMetadataOutput.t
  | nfts_create _ _ => CreateNftOutput.t
  | nfts_verifyCollection _ _ => unit
  | nfts_findByMint _ _ => Nft.t
  | nfts_update _ _ => unit
  end.

(** ** Programs

    [Print] is [console.log]; [Ask] is a call whose result the program waits
    for; [Connect] is [new Connection(endpoint)], whose constructor belongs
    to @solana/web3.js and either rejects the endpoint or yields the
    connection.  There is no constructor for throwing or catching: the module
    does neither, a failed call or a rejected endpoint ends the run. *)
Inductive Prog (A : Type) : Type :=
  | Ret (a : A)
  | Print (args : list string) (k : Prog A)
  | Ask (c : External) (k : Reply c -> Prog A)
  | Connect (endpoint : string) (k : Connection -> Prog A).
Arguments Ret {A} a.
Arguments Print {A} args k.
Arguments Ask {A} c k.
Arguments Connect {A} endpoint k.

Fixpoint bind {A B} (p : Prog A) (f : A -> Prog B) : Prog B :=
  match p with
  | Ret a => f a
  | Print args k => Print args (bind k f)
  | Ask c k => Ask c (fun x => bind (k x) f)
  | Connect endpoint k => Connect endpoint (fun c => bind (k c) f)
  end.

Global Instance Prog_ret : MRet Prog := @Ret.
Global Instance Prog_bind : MBind Prog := fun A B f p => bind p f.

Definition console_log (args : list string) : Prog unit := Print args (Ret tt).
Definition call (c : External) : Prog (Reply c) := Ask c Ret.
Definition new_Connection (endpoint : string) : Prog Connection := Connect endpoint Ret.

(** ** Test doubles and runs *)

(** A double answers every call from its current state, and says which
    endpoints the [Connection] constructor rejects and with what error.  The
    constructor does no input or output: it depends on the endpoint alone and
    leaves no entry in the log. *)
Record Double := {
  World : Type;
  answer : forall c : External, World -> (Error + Reply c) * World;
  endpoint_error : string -> option Error
}.

(** A log entry: a printed line, or a call together with the error it
    threw, if any. *)
Inductive Entry :=
  | Printed (args : list string)
  | Called (c : External) (thrown : option Error).

Record Run (W A : Type) := {
  outcome : Error + A;
  final : W;
  trace : list Entry
}.
Arguments outcome {W A} r.
Arguments final {W A} r.
Arguments trace {W A} r.

Definition logged {W A} (e : Entry) (r : Run W A) : Run W A :=
  {| outcome := outcome r; final := final r; trace := e :: trace r |}.

Fixpoint run (sdk : Double) {A} (p : Prog A) (w : World sdk) : Run (World sdk) A :=
  match p with
  | Ret a => {| outcome := inr a; final := w; trace := [] |}
  | Print args k => logged (Printed args) (run sdk k w)
  | Ask c k =>
      match answer sdk c w with
      | (inl e, w') => {| outcome := inl e; final := w'; trace := [Called c (Some e)] |}
      | (inr x, w') => logged (Called c None) (run sdk (k x) w')
      end
  | Connect endpoint k =>
      match endpoint_error sdk endpoint with
      | Some e => {| outcome := inl e; final := w; trace := [] |}
      | None => run sdk (k {| rpcEndpoint := endpoint |}) w
      end
  end.

(** ** The module *)

(** [initializeMetaplex], lines 21-36. *)
Definition initializeMetaplex (rpcEndpoint : string) (payerKeypair : Keypair)
  : Prog Metaplex.t :=
  connection ← new_Connection rpcEndpoint;
  let metaplex :=
    Metaplex.use
      (bundlrStorage {| Bundlr.address := "https://devnet.bundlr.network";
                        Bundlr.providerUrl := rpcEndpoint;
                        Bundlr.timeout := 60000 |})
      (Metaplex.use (keypairIdentity payerKeypair) (Metaplex.make connection)) in
  mret metaplex.

(** [uploadCollectionMetadata], lines 39-61. *)
Definition uploadCollectionMetadata (metaplex : Metaplex.t) (metadata : Metadata.t)
  : Prog string :=
  out ← call (nfts_uploadMetadata metaplex metadata);
  let uri := UploadMetadataOutput.uri out in
  console_log ["Metadata uploaded:"; uri];;
  mret uri.

(** [createCollection], lines 64-96. *)
Definition createCollection (metaplex : Metaplex.t) (collectionData : CollectionData.t)
  : Prog Nft.t :=
  console_log ["Creating collection..."];;
  out ← call (nfts_create metaplex
    {| CreateNftInput.name := CollectionData.name collectionData;
       CreateNftInput.symbol := CollectionData.symbol collectionData;
       CreateNftInput.uri := CollectionData.uri collectionData;
       CreateNftInput.sellerFeeBasisPoints :=
         CollectionData.sellerFeeBasisPoints collectionData;
       CreateNftInput.creators := CollectionData.creators collectionData;
       CreateNftInput.isMutable :=
         default true (CollectionData.isMutable collectionData);
       CreateNftInput.isCollection := true;
       CreateNftInput.collection := None |});
  let collection := CreateNftOutput.nft out in
  console_log ["✅ Collection created!"];;
  console_log ["Collection Address:"; toBase58 (Nft.address collection)];;
  console_log ["Metadata URI:"; Nft.uri collection];;
  mret collection.

(** [verifyCollection], lines 99-112. *)
Definition verifyCollection (metaplex : Metaplex.t)
    (collectionAddress nftAddress : PublicKey) : Prog unit :=
  console_log ["Verifying collection..."];;
  call (nfts_verifyCollection metaplex
    {| VerifyNftCollectionInput.mintAddress := nftAddress;
       VerifyNftCollectionInput.collectionMintAddress := collectionAddress |});;
  console_log ["✅ Collection verified!"].

(** [updateCollectionMetadata], lines 115-132. *)
Definition updateCollectionMetadata (metaplex : Metaplex.t)
    (collectionAddress : PublicKey) (newUri : string) : Prog unit :=
  console_log ["Updating collection metadata..."];;
  collection ← call (nfts_findByMint metaplex
    {| FindNftByMintInput.mintAddress := collectionAddress |});
  call (nfts_update metaplex
    {| UpdateNftInput.nftOrSft := collection;
       UpdateNftInput.name := None;
       UpdateNftInput.symbol := None;
       UpdateNftInput.uri := Some newUri;
       UpdateNftInput.sellerFeeBasisPoints := None;
       UpdateNftInput.creators := None;
       UpdateNftInput.isMutable := None |});;
  console_log ["✅ Collection metadata updated!"].

(** [exampleCreateCollection], lines 135-190. *)
Definition exampleCreateCollection : Prog Nft.t :=
  text ← call (fs_readFileSync "./wallet.json" "utf-8");
  parsed ← call (JSON_parse text);
  bytes ← call (Uint8Array_from parsed);
  payerKeypair ← call (Keypair_fromSecretKey bytes);
  metaplex ← initializeMetaplex "https://api.devnet.solana.com" payerKeypair;
  let metadata :=
    {| Metadata.name := "My Hybrid Collection";
       Metadata.symbol := "MHC";
       Metadata.description := "A revolutionary hybrid NFT collection on Solana";
       Metadata.image := "https://arweave.net/your-image-url";
       Metadata.external_url := Some "https://yourwebsite.com";
       Metadata.seller_fee_basis_points := 500;
       Metadata.properties :=
         {| Properties.files :=
              [ {| File.uri := "https://arweave.net/your-image-url";
                   File.type := "image/png" |} ];
            Properties.category := "image";
            Properties.creators :=
              [ {| MetadataCreator.address := toBase58 (publicKey payerKeypair);
                   MetadataCreator.share := 100 |} ] |} |} in
  uri ← uploadCollectionMetadata metaplex metadata;
  collection ← createCollection metaplex
    {| CollectionData.name := Metadata.name metadata;
       CollectionData.symbol := Metadata.symbol metadata;
       CollectionData.uri := uri;
       CollectionData.sellerFeeBasisPoints := Metadata.seller_fee_basis_points metadata;
       CollectionData.creators :=
         [ {| CreatorInput.address := publicKey payerKeypair;
              CreatorInput.share := 100 |} ];
       CollectionData.collection := None;
       CollectionData.isMutable := Some true |};
  mret collection.

(** ** The requests the wrappers build *)

(** The object literal [createCollection] passes to [nfts().create]
    (lines 81-89), named for the statements below. *)
Definition create_request (collectionData : CollectionData.t) : CreateNftInput.t :=
  {| CreateNftInput.name := CollectionData.name collectionData;
     CreateNftInput.symbol := CollectionData.symbol collectionData;
     CreateNftInput.uri := CollectionData.uri collectionData;
     CreateNftInput.sellerFeeBasisPoints :=
       CollectionData.sellerFeeBasisPoints collectionData;
     CreateNftInput.creators := CollectionData.creators collectionData;
     CreateNftInput.isMutable := default true (CollectionData.isMutable collectionData);
     CreateNftInput.isCollection := true;
     CreateNftInput.collection := None |}.

(** The object literal [updateCollectionMetadata] passes to [nfts().update]
    (lines 126-129). *)
Definition update_request (collection : Nft.t) (newUri : string) : UpdateNftInput.t :=
  {| UpdateNftInput.nftOrSft := collection;
     UpdateNftInput.name := None;
     UpdateNftInput.symbol := None;
     UpdateNftInput.uri := Some newUri;
     UpdateNftInput.sellerFeeBasisPoints := None;
     UpdateNftInput.creators := None;
     UpdateNftInput.isMutable := None |}.

Definition verify_request (collectionAddress nftAddress : PublicKey)
  : VerifyNftCollectionInput.t :=
  {| VerifyNftCollectionInput.mintAddress := nftAddress;
     VerifyNftCollectionInput.collectionMintAddress := collectionAddress |}.

Definition find_request (collectionAddress : PublicKey) : FindNftByMintInput.t :=
  {| FindNftByMintInput.mintAddress := collectionAddress |}.

(** ** Metadata Document invariants *)

(** Modelled from the spec: the module has no validation code; this is the
    invariant of the spec's data model (creator shares sum to exactly 100,
    royalty basis points within 0..10000), written out so that documents
    can be classified. *)
Definition validDocument (d : Metadata.t) : bool :=
  bool_decide
    (foldr Z.add 0 (MetadataCreator.share <$> Properties.creators (Metadata.properties d))
     = 100)
  && bool_decide (0 <= Metadata.seller_fee_basis_points d <= 10000).

(** ** Reading logs *)

(** An entry of the create step: its opening line, or its SDK call. *)
Definition create_step (e : Entry) : bool :=
  match e with
  | Printed [line] => String.eqb line "Creating collection..."
  | Called (nfts_create _ _) _ => true
  | _ => false
  end.

(** The inputs of the create calls of a log, in order. *)
Fixpoint create_inputs (tr : list Entry) : list CreateNftInput.t :=
  match tr with
  | [] => []
  | Called (nfts_create _ input) _ :: tr' => input :: create_inputs tr'
  | _ :: tr' => create_inputs tr'
  end.

(** The calls of a log that submit a ledger transaction. *)
Definition submission (e : Entry) : bool :=
  match e with
  | Called (nfts_create _ _) _
  | Called (nfts_verifyCollection _ _) _
  | Called (nfts_update _ _) _ => true
  | _ => false
  end.

(** ** Running a sequence *)

Definition sequel {W A B} (r : Run W A) (next : A -> W -> Run W B) : Run W B :=
  match outcome r with
  | inl e => {| outcome := inl e; final := final r; trace := trace r |}
  | inr a =>
      let r' := next a (final r) in
      {| outcome := outcome r'; final := final r'; trace := trace r ++ trace r' |}
  end.

(** ** The SDK's contract for [update] *)

(** The record [update] leaves behind: each field is the one given, or else
    the one of the record handed in as [nftOrSft]. *)
Definition overwritten (i : UpdateNftInput.t) : Nft.t :=
  let n := UpdateNftInput.nftOrSft i in
  {| Nft.address := Nft.address n;
     Nft.name := default (Nft.name n) (UpdateNftInput.name i);
     Nft.symbol := default (Nft.symbol n) (UpdateNftInput.symbol i);
     Nft.uri := default (Nft.uri n) (UpdateNftInput.uri i);
     Nft.sellerFeeBasisPoints :=
       default (Nft.sellerFeeBasisPoints n) (UpdateNftInput.sellerFeeBasisPoints i);
     Nft.creators := default (Nft.creators n) (UpdateNftInput.creators i);
     Nft.isMutable := default (Nft.isMutable n) (UpdateNftInput.isMutable i);
     Nft.isCollection := Nft.isCollection n;
     Nft.collection := Nft.collection n |}.

(** ** A reference double: a content store and a ledger in memory

    The collaborators are outside the module; this double stands for them in
    the concrete runs below.  It follows the contracts the module relies on:
    the content store hands out a locator per upload, the ledger assigns an
    address per mint, [findByMint] resolves an address or reports that it is
    not found, and [update] overwrites the fields it is given and keeps the
    others as they are in the record it is handed; an [update] that would
    change nothing is refused by the SDK before anything is sent.  Key pairs
    are built only from the secret keys of the key ring, and the [Connection]
    constructor rejects endpoints that do not start with "http:" or
    "https:". *)

Global Instance CreatorInput_eq_dec : EqDecision CreatorInput.t.
Proof. solve_decision. Defined.

Global Instance Nft_eq_dec : EqDecision Nft.t.
Proof. solve_decision. Defined.

Module Account.
Record t := {
  name : string;
  symbol : string;
  uri : string;
  sellerFeeBasisPoints : Z;
  creators : list CreatorInput.t;
  isMutable : bool;
  isCollection : bool;
  collection : option (PublicKey * bool)
}.
End Account.

Module Devnet.
Record t := {
  disk : gmap string string;
  documents : gmap string JsValue;
  keyring : gmap (list Z) string;
  locators : list string;
  published : list (string * Metadata.t);
  mints : list string;
  accounts : gmap string Account.t
}.

Definition with_store (ls : list string) (ps : list (string * Metadata.t)) (w : t) : t :=
  {| disk := disk w; documents := documents w; keyring := keyring w;
     locators := ls; published := ps; mints := mints w; accounts := accounts w |}.

Definition with_ledger (ms : list string) (acc : gmap string Account.t) (w : t) : t :=
  {| disk := disk w; documents := documents w; keyring := keyring w;
     locators := locators w; published := published w; mints := ms; accounts := acc |}.
End Devnet.

Definition throw {A} (k : ErrorKind) (d : string) : Error + A :=
  inl {| kind := k; detail := d |}.

Definition toNft (address : PublicKey) (a : Account.t) : Nft.t :=
  {| Nft.address := address; Nft.name := Account.name a;
     Nft.symbol := Account.symbol a; Nft.uri := Account.uri a;
     Nft.sellerFeeBasisPoints := Account.sellerFeeBasisPoints a;
     Nft.creators := Account.creators a; Nft.isMutable := Account.isMutable a;
     Nft.isCollection := Account.isCollection a;
     Nft.collection := Account.collection a |}.

Definition minted (i : CreateNftInput.t) : Account.t :=
  {| Account.name := CreateNftInput.name i; Account.symbol := CreateNftInput.symbol i;
     Account.uri := CreateNftInput.uri i;
     Account.sellerFeeBasisPoints := CreateNftInput.sellerFeeBasisPoints i;
     Account.creators := CreateNftInput.creators i;
     Account.isMutable := CreateNftInput.isMutable i;
     Account.isCollection := CreateNftInput.isCollection i;
     Account.collection := (fun c => (c, false)) <$> CreateNftInput.collection i |}.

(** The account [update] writes: each field is the one given, or else the one
    of the record handed in as [nftOrSft]. *)
Definition updated (i : UpdateNftInput.t) : Account.t :=
  let n := UpdateNftInput.nftOrSft i in
  {| Account.name := default (Nft.name n) (UpdateNftInput.name i);
     Account.symbol := default (Nft.symbol n) (UpdateNftInput.symbol i);
     Account.uri := default (Nft.uri n) (UpdateNftInput.uri i);
     Account.sellerFeeBasisPoints :=
       default (Nft.sellerFeeBasisPoints n) (UpdateNftInput.sellerFeeBasisPoints i);
     Account.creators := default (Nft.creators n) (UpdateNftInput.creators i);
     Account.isMutable := default (Nft.isMutable n) (UpdateNftInput.isMutable i);
     Account.isCollection := Nft.isCollection n;
     Account.collection := Nft.collection n |}.

Definition verified (collection : PublicKey) (a : Account.t) : Account.t :=
  {| Account.name := Account.name a; Account.symbol := Account.symbol a;
     Account.uri := Account.uri a;
     Account.sellerFeeBasisPoints := Account.sellerFeeBasisPoints a;
     Account.creators := Account.creators a; Account.isMutable := Account.isMutable a;
     Account.isCollection := Account.isCollection a;
     Account.collection := Some (collection, true) |}.

Definition devnet_answer (c : External) (w : Devnet.t) : (Error + Reply c) * Devnet.t :=
  match c as c0 return (Error + Reply c0) * Devnet.t with
  | fs_readFileSync path _ =>
      match Devnet.disk w !! path with
      | Some text => (inr text, w)
      | None => (throw RuntimeError "ENOENT", w)
      end
  | JSON_parse text =>
      match Devnet.documents w !! text with
      | Some v => (inr v, w)
      | None => (throw RuntimeError "SyntaxError", w)
      end
  | Uint8Array_from source =>
      match source with
      | JsArray items => (inr ((fun z => z mod 256) <$> items), w)
      | JsOther _ => (inr [], w)
      end
  | Keypair_fromSecretKey secret =>
      if decide (length secret = 64%nat)
      then match Devnet.keyring w !! secret with
           | Some address =>
               (inr {| publicKey := {| toBase58 := address |}; secretKey := secret |}, w)
           | None => (throw RuntimeError "provided secretKey is invalid", w)
           end
      else (throw RuntimeError "bad secret key size", w)
  | nfts_uploadMetadata _ input =>
      match Devnet.locators w with
      | [] => (throw (PublishError false) "not enough funds to send data", w)
      | l :: ls =>
          (inr {| UploadMetadataOutput.uri := l; UploadMetadataOutput.metadata := input |},
           Devnet.with_store ls ((l, input) :: Devnet.published w) w)
      end
  | nfts_create metaplex input =>
      match Metaplex.identity metaplex, Devnet.mints w with
      | None, _ => (throw (LedgerError false) "missing signer", w)
      | Some _, [] => (throw (LedgerError false) "insufficient funds", w)
      | Some _, a :: ms =>
          (inr {| CreateNftOutput.nft := toNft {| toBase58 := a |} (minted input) |},
           Devnet.with_ledger ms (<[a := minted input]> (Devnet.accounts w)) w)
      end
  | nfts_verifyCollection metaplex input =>
      let mint := toBase58 (VerifyNftCollectionInput.mintAddress input) in
      let parent := VerifyNftCollectionInput.collectionMintAddress input in
      match Metaplex.identity metaplex,
            Devnet.accounts w !! mint, Devnet.accounts w !! toBase58 parent with
      | Some _, Some a, Some p =>
          if Account.isCollection p
          then (inr tt, Devnet.with_ledger (Devnet.mints w)
                          (<[mint := verified parent a]> (Devnet.accounts w)) w)
          else (throw (LedgerError false) "not a collection", w)
      | None, _, _ => (throw (LedgerError false) "missing signer", w)
      | _, _, _ => (throw (LedgerError false) "account does not exist", w)
      end
  | nfts_findByMint _ input =>
      let mint := FindNftByMintInput.mintAddress input in
      match Devnet.accounts w !! toBase58 mint with
      | Some a => (inr (toNft mint a), w)
      | None => (throw NotFoundError "account not found", w)
      end
  | nfts_update metaplex input =>
      let mint := toBase58 (Nft.address (UpdateNftInput.nftOrSft input)) in
      if decide (overwritten input = UpdateNftInput.nftOrSft input)
      then (throw ValidationError "NoInstructionsToSendError", w)
      else
        match Metaplex.identity metaplex, Devnet.accounts w !! mint with
        | Some _, Some a =>
            if Account.isMutable a
            then (inr tt, Devnet.with_ledger (Devnet.mints w)
                            (<[mint := updated input]> (Devnet.accounts w)) w)
            else (throw (LedgerError false) "data is immutable", w)
        | None, _ => (throw (LedgerError false) "missing signer", w)
        | _, None => (throw (LedgerError false) "account does not exist", w)
        end
  end.

Definition devnet_endpoint_error (endpoint : string) : option Error :=
  if String.prefix "http:" endpoint || String.prefix "https:" endpoint
  then None
  else Some {| kind := RuntimeError;
               detail := "Endpoint URL must start with `http:` or `https:`." |}.

Definition devnet : Double :=
  {| World := Devnet.t; answer := devnet_answer;
     endpoint_error := devnet_endpoint_error |}.

(** Worlds of the reference double used in the concrete runs. *)

Definition wallet_text : string := "[1,1,...]".

Definition fresh (locators mints : list string) : Devnet.t :=
  {| Devnet.disk := {[ "./wallet.json" := wallet_text ]};
     Devnet.documents := {[ wallet_text := JsArray (replicate 64 1) ]};
     Devnet.keyring := {[ replicate 64 1 := "key64" ]};
     Devnet.locators := locators;
     Devnet.published := [];
     Devnet.mints := mints;
     Devnet.accounts := ∅ |}.

Definition payer : Keypair :=
  {| publicKey := {| toBase58 := "key64" |}; secretKey := replicate 64 1 |}.

(** The session [initializeMetaplex] hands back once the endpoint is
    accepted (lines 27-35). *)
Definition configured (rpcEndpoint : string) (payerKeypair : Keypair) : Metaplex.t :=
  Metaplex.use
    (bundlrStorage {| Bundlr.address := "https://devnet.bundlr.network";
                      Bundlr.providerUrl := rpcEndpoint;
                      Bundlr.timeout := 60000 |})
    (Metaplex.use (keypairIdentity payerKeypair)
       (Metaplex.make {| rpcEndpoint := rpcEndpoint |})).

Definition session : Metaplex.t := configured "https://api.devnet.solana.com" payer.

(** Test data: the document of the spec's scenario (shares 60 + 30). *)
Definition unbalanced : Metadata.t :=
  {| Metadata.name := "X"; Metadata.symbol := "X"; Metadata.description := "";
     Metadata.image := ""; Metadata.external_url := None;
     Metadata.seller_fee_basis_points := 0;
     Metadata.properties :=
       {| Properties.files := []; Properties.category := "image";
          Properties.creators :=
            [ {| MetadataCreator.address := "A"; MetadataCreator.share := 60 |};
              {| MetadataCreator.address := "B"; MetadataCreator.share := 30 |} ] |} |}.

Definition sample : CollectionData.t :=
  {| CollectionData.name := "X"; CollectionData.symbol := "X";
     CollectionData.uri := "loc://abc"; CollectionData.sellerFeeBasisPoints := 500;
     CollectionData.creators :=
       [ {| CreatorInput.address := publicKey payer; CreatorInput.share := 100 |} ];
     CollectionData.collection := None; CollectionData.isMutable := None |}.

(** The collection data the workflow builds for [payer] once it holds the
    locator. *)
Definition workflow_data (uri : string) : CollectionData.t :=
  {| CollectionData.name := "My Hybrid Collection";
     CollectionData.symbol := "MHC";
     CollectionData.uri := uri;
     CollectionData.sellerFeeBasisPoints := 500;
     CollectionData.creators :=
       [ {| CreatorInput.address := publicKey payer; CreatorInput.share := 100 |} ];
     CollectionData.collection := None;
     CollectionData.isMutable := Some true |}.

(** [queryAccount] of the reference double. *)
Definition devnet_query (w : Devnet.t) (a : PublicKey) : option Nft.t :=
  toNft a <$> Devnet.accounts w !! toBase58 a.

Definition collection_address : PublicKey := {| toBase58 := "addr123" |}.
Definition member_address : PublicKey := {| toBase58 := "nft456" |}.

(** The world after the example workflow has run: locator "loc://abc"
    published, collection minted at "addr123". *)
Definition settled : Devnet.t :=
  final (run devnet exampleCreateCollection (fresh ["loc://abc"] ["addr123"])).

(** The same world with one more mint, not yet a verified member. *)
Definition with_member : Devnet.t :=
  Devnet.with_ledger []
    (<["nft456" := minted (create_request sample)]> (Devnet.accounts settled)) settled.

(** ** Further log readers and test data *)

(** The document the workflow builds for a loaded key pair (lines 147-169)
    and the collection data it builds once it holds the locator
    (lines 175-187). *)
Definition workflow_document (payerKeypair : Keypair) : Metadata.t :=
  {| Metadata.name := "My Hybrid Collection";
     Metadata.symbol := "MHC";
     Metadata.description := "A revolutionary hybrid NFT collection on Solana";
     Metadata.image := "https://arweave.net/your-image-url";
     Metadata.external_url := Some "https://yourwebsite.com";
     Metadata.seller_fee_basis_points := 500;
     Metadata.properties :=
       {| Properties.files :=
            [ {| File.uri := "https://arweave.net/your-image-url";
                 File.type := "image/png" |} ];
          Properties.category := "image";
          Properties.creators :=
            [ {| MetadataCreator.address := toBase58 (publicKey payerKeypair);
                 MetadataCreator.share := 100 |} ] |} |}.

Definition workflow_collection (payerKeypair : Keypair) (uri : string) : CollectionData.t :=
  {| CollectionData.name := "My Hybrid Collection";
     CollectionData.symbol := "MHC";
     CollectionData.uri := uri;
     CollectionData.sellerFeeBasisPoints := 500;
     CollectionData.creators :=
       [ {| CreatorInput.address := publicKey payerKeypair; CreatorInput.share := 100 |} ];
     CollectionData.collection := None;
     CollectionData.isMutable := Some true |}.

(** The log of the four decoding steps of the workflow when all succeed. *)
Definition wallet_log (text : string) (parsed : JsValue) (bytes : list Z) : list Entry :=
  [ Called (fs_readFileSync "./wallet.json" "utf-8") None;
    Called (JSON_parse text) None;
    Called (Uint8Array_from parsed) None;
    Called (Keypair_fromSecretKey bytes) None ].

(** The calls of a log that go through the SDK to the network. *)
Definition network_call (e : Entry) : bool :=
  match e with
  | Called (nfts_uploadMetadata _ _) _
  | Called (nfts_create _ _) _
  | Called (nfts_verifyCollection _ _) _
  | Called (nfts_findByMint _ _) _
  | Called (nfts_update _ _) _ => true
  | _ => false
  end.

Definition upload_call (e : Entry) : bool :=
  match e with
  | Called (nfts_uploadMetadata _ _) _ => true
  | _ => false
  end.

Definition create_call (e : Entry) : bool :=
  match e with
  | Called (nfts_create _ _) _ => true
  | _ => false
  end.

Definition external_call (e : Entry) : bool :=
  match e with
  | Called _ _ => true
  | Printed _ => false
  end.

(** The document the workflow uploads when the wallet holds [payer]. *)
Definition workflow_metadata : Metadata.t :=
  {| Metadata.name := "My Hybrid Collection";
     Metadata.symbol := "MHC";
     Metadata.description := "A revolutionary hybrid NFT collection on Solana";
     Metadata.image := "https://arweave.net/your-image-url";
     Metadata.external_url := Some "https://yourwebsite.com";
     Metadata.seller_fee_basis_points := 500;
     Metadata.properties :=
       {| Properties.files :=
            [ {| File.uri := "https://arweave.net/your-image-url";
                 File.type := "image/png" |} ];
          Properties.category := "image";
          Properties.creators :=
            [ {| MetadataCreator.address := "key64";
                 MetadataCreator.share := 100 |} ] |} |}.

(** Collection data asking for an immutable record, and the world in which
    it has been minted at "addr123". *)
Definition sealed_data : CollectionData.t :=
  {| CollectionData.name := "X"; CollectionData.symbol := "X";
     CollectionData.uri := "loc://abc"; CollectionData.sellerFeeBasisPoints := 500;
     CollectionData.creators :=
       [ {| CreatorInput.address := publicKey payer; CreatorInput.share := 100 |} ];
     CollectionData.collection := None; CollectionData.isMutable := Some false |}.

Definition sealed : Devnet.t :=
  final (run devnet (createCollection session sealed_data) (fresh [] ["addr123"])).

(** ** Proof automation *)

Ltac answer_cases :=
  repeat match goal with
         | |- context [answer ?sdk ?c ?w] =>
             destruct (answer sdk c w) as [[? | ?] ?]; cbn
         | |- context [endpoint_error ?sdk ?endpoint] =>
             destruct (endpoint_error sdk endpoint) as [? |]; cbn
         end.

Ltac index_cases j :=
  repeat (destruct j as [| j]; cbn in *; simplify_eq; try lia).

Ltac answer_cases_eq :=
  repeat match goal with
         | |- context [answer ?sdk ?c ?w] =>
             let H := fresh "Hanswer" in
             destruct (answer sdk c w) as [[? | ?] ?] eqn:H; cbn
         | |- context [endpoint_error ?sdk ?endpoint] =>
             let H := fresh "Hendpoint" in
             destruct (endpoint_error sdk endpoint) as [? |] eqn:H; cbn
         end.

(** * Properties *)

(** ** Runs of the wrappers *)

Lemma run_bind sdk {A B} (p : Prog A) (f : A -> Prog B) (w : World sdk) :
  run sdk (p ≫= f) w = sequel (run sdk p w) (fun a w' => run sdk (f a) w').
Proof.
  revert w. induction p as [a | args k IH | c k IH | endpoint k IH]; intros w.
  - unfold sequel; cbn. by destruct (run sdk (f a) w).
  - change (run sdk (Print args k ≫= f) w)
      with (logged (Printed args) (run sdk (k ≫= f) w)).
    rewrite IH. cbn. unfold sequel, logged; cbn.
    by destruct (outcome (run sdk k w)).
  - change (run sdk (Ask c k ≫= f) w)
      with (match answer sdk c w with
            | (inl e, w') =>
                {| outcome := inl e; final := w'; trace := [Called c (Some e)] |}
            | (inr x, w') => logged (Called c None) (run sdk (k x ≫= f) w')
            end).
    cbn. destruct (answer sdk c w) as [[e | x] w']; [done |].
    rewrite IH. unfold sequel, logged; cbn.
    by destruct (outcome (run sdk (k x) w')).
  - change (run sdk (Connect endpoint k ≫= f) w)
      with (match endpoint_error sdk endpoint with
            | Some e => {| outcome := inl e; final := w; trace := [] |}
            | None => run sdk (k {| rpcEndpoint := endpoint |} ≫= f) w
            end).
    cbn. destruct (endpoint_error sdk endpoint) as [e |]; [done |].
    by rewrite IH.
Qed.

(** The run of each wrapper, by cases on what the double answers. *)

Lemma uploadCollectionMetadata_run sdk (w : World sdk) metaplex metadata :
  run sdk (uploadCollectionMetadata metaplex metadata) w =
  match answer sdk (nfts_uploadMetadata metaplex metadata) w with
  | (inl e, w') =>
      {| outcome := inl e; final := w';
         trace := [Called (nfts_uploadMetadata metaplex metadata) (Some e)] |}
  | (inr out, w') =>
      {| outcome := inr (UploadMetadataOutput.uri out); final := w';
         trace := [Called (nfts_uploadMetadata metaplex metadata) None;
                   Printed ["Metadata uploaded:"; UploadMetadataOutput.uri out]] |}
  end.
Proof.
  unfold uploadCollectionMetadata; cbn.
  by destruct (answer sdk (nfts_uploadMetadata metaplex metadata) w) as [[e | out] w'].
Qed.

Lemma createCollection_run sdk (w : World sdk) metaplex collectionData :
  run sdk (createCollection metaplex collectionData) w =
  match answer sdk (nfts_create metaplex (create_request collectionData)) w with
  | (inl e, w') =>
      {| outcome := inl e; final := w';
         trace := [Printed ["Creating collection..."];
                   Called (nfts_create metaplex (create_request collectionData)) (Some e)] |}
  | (inr out, w') =>
      let collection := CreateNftOutput.nft out in
      {| outcome := inr collection; final := w';
         trace := [Printed ["Creating collection..."];
                   Called (nfts_create metaplex (create_request collectionData)) None;
                   Printed ["✅ Collection created!"];
                   Printed ["Collection Address:"; toBase58 (Nft.address collection)];
                   Printed ["Metadata URI:"; Nft.uri collection]] |}
  end.
Proof.
  unfold createCollection; cbn. fold (create_request collectionData).
  by destruct (answer sdk (nfts_create metaplex (create_request collectionData)) w)
    as [[e | out] w'].
Qed.

Lemma verifyCollection_run sdk (w : World sdk) metaplex collectionAddress nftAddress :
  let c := nfts_verifyCollection metaplex (verify_request collectionAddress nftAddress) in
  run sdk (verifyCollection metaplex collectionAddress nftAddress) w =
  match answer sdk c w with
  | (inl e, w') =>
      {| outcome := inl e; final := w';
         trace := [Printed ["Verifying collection..."]; Called c (Some e)] |}
  | (inr _, w') =>
      {| outcome := inr tt; final := w';
         trace := [Printed ["Verifying collection..."]; Called c None;
                   Printed ["✅ Collection verified!"]] |}
  end.
Proof.
  unfold verifyCollection; cbn.
  fold (verify_request collectionAddress nftAddress).
  by destruct (answer sdk _ w) as [[e | out] w'].
Qed.

Lemma updateCollectionMetadata_run sdk (w : World sdk) metaplex collectionAddress newUri :
  let find := nfts_findByMint metaplex (find_request collectionAddress) in
  run sdk (updateCollectionMetadata metaplex collectionAddress newUri) w =
  match answer sdk find w with
  | (inl e, w') =>
      {| outcome := inl e; final := w';
         trace := [Printed ["Updating collection metadata..."]; Called find (Some e)] |}
  | (inr collection, w') =>
      let update := nfts_update metaplex (update_request collection newUri) in
      match answer sdk update w' with
      | (inl e, w'') =>
          {| outcome := inl e; final := w'';
             trace := [Printed ["Updating collection metadata..."]; Called find None;
                       Called update (Some e)] |}
      | (inr _, w'') =>
          {| outcome := inr tt; final := w'';
             trace := [Printed ["Updating collection metadata..."]; Called find None;
                       Called update None;
                       Printed ["✅ Collection metadata updated!"]] |}
      end
  end.
Proof.
  unfold updateCollectionMetadata; cbn.
  fold (find_request collectionAddress).
  destruct (answer sdk _ w) as [[e | collection] w']; [done |].
  cbn. fold (update_request collection newUri).
  by destruct (answer sdk _ w') as [[e | out] w''].
Qed.

(** ** Session set-up *)



(** ** Publishing *)

(** C1, as amended: the publish wrapper checks nothing locally.  For every
    document, whatever its shares and basis points, the first thing it does
    is the SDK upload call with the document unchanged; it fails exactly when
    that call throws, with the error thrown, and otherwise returns the
    locator the SDK answered. *)
Theorem uploadCollectionMetadata_unvalidated sdk (w : World sdk) metaplex metadata :
  let r := run sdk (uploadCollectionMetadata metaplex metadata) w in
  exists thrown rest,
    trace r = Called (nfts_uploadMetadata metaplex metadata) thrown :: rest
    /\ (forall e, outcome r = inl e <-> thrown = Some e)
    /\ (forall uri, outcome r = inr uri <->
          exists out w', answer sdk (nfts_uploadMetadata metaplex metadata) w = (inr out, w')
                         /\ UploadMetadataOutput.uri out = uri).
Proof.
  cbn zeta. rewrite uploadCollectionMetadata_run.
  destruct (answer sdk _ w) as [[e | out] w']; cbn.
  - exists (Some e), []. split; [done |]. split.
    + intros e'. split; congruence.
    + intros uri. split; [done |]. by intros (? & ? & ? & _).
  - eexists None, _. split; [done |]. split.
    + intros e'. split; congruence.
    + intros uri. split.
      * intros [= <-]. by eexists _, _.
      * intros (out' & w'' & [= <- <-] & <-). done.
Qed.

(** C1, counterexample: the document of the spec's scenario has shares
    summing to 90, yet publishing it against the reference double performs
    the upload and returns the locator; no validation error is raised. *)
Lemma uploadCollectionMetadata_accepts_unbalanced :
  validDocument unbalanced = false
  /\ run devnet (uploadCollectionMetadata session unbalanced) (fresh ["loc://abc"] [])
     = {| outcome := inr "loc://abc";
          final := Devnet.with_store [] [("loc://abc", unbalanced)] (fresh ["loc://abc"] []);
          trace := [Called (nfts_uploadMetadata session unbalanced) None;
                    Printed ["Metadata uploaded:"; "loc://abc"]] |}.
Proof. split; reflexivity. Qed.

(** ** Creating *)

(** C8: when [isMutable] is left out the create call asks for a mutable
    record, and when it is given the call carries the given value. *)
Theorem createCollection_isMutable_default sdk (w : World sdk) metaplex collectionData :
  exists input thrown rest,
    trace (run sdk (createCollection metaplex collectionData) w)
      = Printed ["Creating collection..."] :: Called (nfts_create metaplex input) thrown :: rest
    /\ CreateNftInput.isMutable input
       = match CollectionData.isMutable collectionData with
         | None => true
         | Some b => b
         end.
Proof.
  rewrite createCollection_run.
  exists (create_request collectionData).
  destruct (answer sdk _ w) as [[e | out] w']; cbn.
  - eexists _, _. split; [done |]. by destruct (CollectionData.isMutable collectionData).
  - eexists _, _. split; [done |]. by destruct (CollectionData.isMutable collectionData).
Qed.

(** C10: the optional [collection] field never reaches the SDK.  Two inputs
    that differ only in that field give the same run (same calls, same
    outcome), and every create call issued has [isCollection] set and no
    parent collection. *)
Theorem createCollection_ignores_collection sdk (w : World sdk) metaplex collectionData
    (c1 c2 : option PublicKey) :
  let r1 := run sdk (createCollection metaplex
                       (CollectionData.with_collection c1 collectionData)) w in
  let r2 := run sdk (createCollection metaplex
                       (CollectionData.with_collection c2 collectionData)) w in
  r1 = r2
  /\ create_inputs (trace r1) = [create_request collectionData]
  /\ Forall (fun input => CreateNftInput.isCollection input = true
                          /\ CreateNftInput.collection input = None)
       (create_inputs (trace r1)).
Proof.
  cbn zeta. rewrite !createCollection_run.
  change (create_request (CollectionData.with_collection c1 collectionData))
    with (create_request collectionData).
  change (create_request (CollectionData.with_collection c2 collectionData))
    with (create_request collectionData).
  split; [done |].
  destruct (answer sdk _ w) as [[e | out] w']; cbn; (split; [done |]);
    by repeat constructor.
Qed.

Section CreateContract.
Variable sdk : Double.

(** The SDK's contract for [create]: the record it returns carries the
    locator it was given. *)
Hypothesis create_keeps_uri : forall metaplex input (w : World sdk) out w',
  answer sdk (nfts_create metaplex input) w = (inr out, w') ->
  Nft.uri (CreateNftOutput.nft out) = CreateNftInput.uri input.

(** C6: the locator passed to [createCollection] is the locator of the
    record a successful call returns; the wrapper forwards it unchanged in
    its one create call and returns the SDK's record as it is. *)
Theorem createCollection_locator_roundtrip (w : World sdk) metaplex collectionData collection :
  outcome (run sdk (createCollection metaplex collectionData) w) = inr collection ->
  Nft.uri collection = CollectionData.uri collectionData
  /\ CreateNftInput.uri <$> create_inputs (trace (run sdk (createCollection metaplex collectionData) w))
     = [CollectionData.uri collectionData].
Proof.
  rewrite createCollection_run.
  destruct (answer sdk _ w) as [[e | out] w'] eqn:Hanswer; cbn; [done |].
  intros [= <-]. split; [| done].
  by rewrite (create_keeps_uri _ _ _ _ _ Hanswer).
Qed.
End CreateContract.

Lemma devnet_create_keeps_uri metaplex input (w : World devnet) out w' :
  answer devnet (nfts_create metaplex input) w = (inr out, w') ->
  Nft.uri (CreateNftOutput.nft out) = CreateNftInput.uri input.
Proof.
  cbn. destruct (Metaplex.identity metaplex), (Devnet.mints w); try done.
  by intros [= <- _].
Qed.

Lemma createCollection_locator_roundtrip_witness :
  Nft.uri (toNft collection_address (minted (create_request sample))) = "loc://abc"
  /\ CreateNftInput.uri <$>
       create_inputs (trace (run devnet (createCollection session sample) (fresh [] ["addr123"])))
     = ["loc://abc"].
Proof.
  exact (createCollection_locator_roundtrip devnet devnet_create_keeps_uri
           (fresh [] ["addr123"]) session sample
           (toNft collection_address (minted (create_request sample))) eq_refl).
Defined.

(** ** Verifying *)

(** C7: verifying the same membership twice against a ledger that accepts
    both transactions submits two transactions and raises nothing; the
    wrapper does not remember what it has verified. *)
Theorem verifyCollection_repeatable sdk (w w1 w2 : World sdk) metaplex
    collectionAddress nftAddress :
  let c := nfts_verifyCollection metaplex (verify_request collectionAddress nftAddress) in
  answer sdk c w = (inr tt, w1) ->
  answer sdk c w1 = (inr tt, w2) ->
  let r := run sdk (verifyCollection metaplex collectionAddress nftAddress;;
                    verifyCollection metaplex collectionAddress nftAddress) w in
  outcome r = inr tt
  /\ final r = w2
  /\ filter (fun e => submission e = true) (trace r) = [Called c None; Called c None].
Proof.
  intros c H1 H2 r. subst r. rewrite run_bind.
  pose proof (verifyCollection_run sdk w metaplex collectionAddress nftAddress) as E1.
  pose proof (verifyCollection_run sdk w1 metaplex collectionAddress nftAddress) as E2.
  cbn zeta in E1, E2. fold c in E1, E2. rewrite H1 in E1. rewrite H2 in E2.
  rewrite E1. unfold sequel. cbn [outcome final trace]. by rewrite E2.
Qed.

Lemma verifyCollection_repeatable_witness :
  let r := run devnet (verifyCollection session collection_address member_address;;
                       verifyCollection session collection_address member_address)
             with_member in
  outcome r = inr tt
  /\ final r = Devnet.with_ledger []
                 (<["nft456" := verified collection_address (minted (create_request sample))]>
                    (Devnet.accounts with_member)) with_member
  /\ filter (fun e => submission e = true) (trace r)
     = [Called (nfts_verifyCollection session (verify_request collection_address member_address)) None;
        Called (nfts_verifyCollection session (verify_request collection_address member_address)) None].
Proof.
  apply (verifyCollection_repeatable devnet with_member
           (Devnet.with_ledger []
              (<["nft456" := verified collection_address (minted (create_request sample))]>
                 (Devnet.accounts with_member)) with_member)).
  - reflexivity.
  - vm_compute. reflexivity.
Defined.

(** ** Updating *)

(** C4: when the address does not resolve, that is, when the lookup
    [findByMint] reports it as not found, the update wrapper has looked the
    record up first, fails with that same not-found error (not a ledger
    error) and issues no update transaction. *)
Theorem updateCollectionMetadata_not_found sdk (w w' : World sdk) metaplex
    collectionAddress newUri e :
  answer sdk (nfts_findByMint metaplex (find_request collectionAddress)) w = (inl e, w') ->
  kind e = NotFoundError ->
  let r := run sdk (updateCollectionMetadata metaplex collectionAddress newUri) w in
  outcome r = inl e
  /\ (exists err, outcome r = inl err /\ kind err = NotFoundError
                  /\ forall transient, kind err <> LedgerError transient)
  /\ trace r = [Printed ["Updating collection metadata..."];
                Called (nfts_findByMint metaplex (find_request collectionAddress)) (Some e)]
  /\ filter (fun en => submission en = true) (trace r) = []
  /\ final r = w'.
Proof.
  intros Hfind Hkind r. subst r.
  rewrite updateCollectionMetadata_run. cbn zeta. rewrite Hfind.
  cbn. repeat split; try done.
  exists e. repeat split; [done |]. intros transient. by rewrite Hkind.
Qed.

Lemma updateCollectionMetadata_not_found_witness :
  let r := run devnet (updateCollectionMetadata session collection_address "loc://xyz")
             (fresh [] []) in
  let e := {| kind := NotFoundError; detail := "account not found" |} in
  outcome r = inl e
  /\ (exists err, outcome r = inl err /\ kind err = NotFoundError
                  /\ forall transient, kind err <> LedgerError transient)
  /\ trace r = [Printed ["Updating collection metadata..."];
                Called (nfts_findByMint session (find_request collection_address)) (Some e)]
  /\ filter (fun en => submission en = true) (trace r) = []
  /\ final r = fresh [] [].
Proof.
  apply (updateCollectionMetadata_not_found devnet (fresh [] []) (fresh [] [])).
  - reflexivity.
  - reflexivity.
Defined.

Section UpdateContract.
Variable sdk : Double.

(** The ledger's [queryAccount]: the record an address resolves to. *)
Variable queryAccount : World sdk -> PublicKey -> option Nft.t.

(** [findByMint] is a read: it returns the record at the address and leaves
    the ledger as it is. *)
Hypothesis findByMint_reads : forall metaplex a (w : World sdk) n w',
  answer sdk (nfts_findByMint metaplex (find_request a)) w = (inr n, w') ->
  w' = w /\ queryAccount w a = Some n /\ Nft.address n = a.

(** An accepted [update] writes the overwritten record at the address of the
    record it was handed and touches no other address. *)
Hypothesis update_writes : forall metaplex i (w : World sdk) x w',
  answer sdk (nfts_update metaplex i) w = (inr x, w') ->
  forall b, queryAccount w' b =
            if decide (b = Nft.address (UpdateNftInput.nftOrSft i))
            then Some (overwritten i) else queryAccount w b.

(** C5: a successful update changes the record's locator and nothing else:
    the record found at the address afterwards is the one found there before
    with [uri] replaced, so name, symbol, address, mutability flag, creators
    and the remaining fields are as they were; other addresses are untouched. *)
Theorem updateCollectionMetadata_frame (w : World sdk) metaplex collectionAddress newUri :
  let r := run sdk (updateCollectionMetadata metaplex collectionAddress newUri) w in
  outcome r = inr tt ->
  exists before after,
    queryAccount w collectionAddress = Some before
    /\ queryAccount (final r) collectionAddress = Some after
    /\ after = Nft.with_uri newUri before
    /\ Nft.uri after = newUri
    /\ Nft.name after = Nft.name before
    /\ Nft.symbol after = Nft.symbol before
    /\ Nft.address after = Nft.address before
    /\ Nft.isMutable after = Nft.isMutable before
    /\ Nft.creators after = Nft.creators before
    /\ (forall b, b <> collectionAddress -> queryAccount (final r) b = queryAccount w b).
Proof.
  intros r. subst r. rewrite updateCollectionMetadata_run. cbn zeta.
  destruct (answer sdk _ w) as [[e | n] w1] eqn:Hfind; [done |].
  destruct (answer sdk _ w1) as [[e | x] w2] eqn:Hupdate; [done |].
  cbn. intros _.
  destruct (findByMint_reads _ _ _ _ _ Hfind) as (-> & Hbefore & Haddress).
  pose proof (update_writes _ _ _ _ _ Hupdate) as Hafter. cbn in Hafter.
  exists n, (Nft.with_uri newUri n).
  split; [done |]. split.
  { rewrite Hafter, Haddress. by rewrite decide_True. }
  repeat (split; [done |]).
  intros b Hb. rewrite Hafter, Haddress. by rewrite decide_False.
Qed.
End UpdateContract.

Lemma toBase58_inj (a b : PublicKey) : toBase58 a = toBase58 b -> a = b.
Proof. destruct a, b; cbn; congruence. Qed.

Lemma devnet_findByMint_reads metaplex a (w : World devnet) n w' :
  answer devnet (nfts_findByMint metaplex (find_request a)) w = (inr n, w') ->
  w' = w /\ devnet_query w a = Some n /\ Nft.address n = a.
Proof.
  cbn. unfold devnet_query.
  destruct (Devnet.accounts w !! toBase58 a) as [acc |]; [| done].
  by intros [= <- <-].
Qed.

Lemma devnet_update_writes metaplex i (w : World devnet) x w' :
  answer devnet (nfts_update metaplex i) w = (inr x, w') ->
  forall b, devnet_query w' b =
            if decide (b = Nft.address (UpdateNftInput.nftOrSft i))
            then Some (overwritten i) else devnet_query w b.
Proof.
  cbn. destruct (decide (overwritten i = _)); [done |].
  destruct (Metaplex.identity metaplex); [| done].
  destruct (Devnet.accounts w !! _) as [acc |]; [| done].
  destruct (Account.isMutable acc); [| done].
  intros [= _ <-] b. unfold devnet_query; cbn.
  destruct (decide (b = _)) as [-> | Hne].
  - by rewrite lookup_insert_eq.
  - rewrite lookup_insert_ne; [done |]. intros Heq. by apply Hne, toBase58_inj.
Qed.

Lemma updateCollectionMetadata_frame_witness :
  let r := run devnet (updateCollectionMetadata session collection_address "loc://xyz")
             settled in
  exists before after,
    devnet_query settled collection_address = Some before
    /\ devnet_query (final r) collection_address = Some after
    /\ after = Nft.with_uri "loc://xyz" before
    /\ Nft.uri after = "loc://xyz"
    /\ Nft.name after = Nft.name before
    /\ Nft.symbol after = Nft.symbol before
    /\ Nft.address after = Nft.address before
    /\ Nft.isMutable after = Nft.isMutable before
    /\ Nft.creators after = Nft.creators before
    /\ (forall b, b <> collection_address -> devnet_query (final r) b = devnet_query settled b).
Proof.
  apply (updateCollectionMetadata_frame devnet devnet_query
           devnet_findByMint_reads devnet_update_writes
           settled session collection_address "loc://xyz").
  vm_compute. reflexivity.
Defined.

(** The spec's scenario on the reference double: after publishing
    "loc://abc", minting "addr123" and updating to "loc://xyz", the account
    reads back with the new locator and every other field as minted. *)
Example update_scenario :
  devnet_query settled collection_address
    = Some (toNft collection_address
              (minted (create_request
                 (workflow_data "loc://abc"))))
  /\ devnet_query
       (final (run devnet (updateCollectionMetadata session collection_address "loc://xyz")
                 settled))
       collection_address
     = Some (Nft.with_uri "loc://xyz"
               (toNft collection_address
                  (minted (create_request
                     (workflow_data "loc://abc"))))).
Proof. split; vm_compute; reflexivity. Qed.

(** ** The workflow *)

(** What the workflow does once the wallet is decoded and the endpoint
    accepted, by cases on what the double answers to the two SDK calls. *)
Lemma exampleCreateCollection_loaded sdk (w w1 w2 w3 w4 : World sdk)
    text parsed bytes payerKeypair :
  answer sdk (fs_readFileSync "./wallet.json" "utf-8") w = (inr text, w1) ->
  answer sdk (JSON_parse text) w1 = (inr parsed, w2) ->
  answer sdk (Uint8Array_from parsed) w2 = (inr bytes, w3) ->
  answer sdk (Keypair_fromSecretKey bytes) w3 = (inr payerKeypair, w4) ->
  endpoint_error sdk "https://api.devnet.solana.com" = None ->
  let metaplex := configured "https://api.devnet.solana.com" payerKeypair in
  let upload := nfts_uploadMetadata metaplex (workflow_document payerKeypair) in
  run sdk exampleCreateCollection w =
  match answer sdk upload w4 with
  | (inl e, w5) =>
      {| outcome := inl e; final := w5;
         trace := wallet_log text parsed bytes ++ [Called upload (Some e)] |}
  | (inr out, w5) =>
      let uri := UploadMetadataOutput.uri out in
      let create :=
        nfts_create metaplex (create_request (workflow_collection payerKeypair uri)) in
      match answer sdk create w5 with
      | (inl e, w6) =>
          {| outcome := inl e; final := w6;
             trace := wallet_log text parsed bytes
                      ++ [Called upload None; Printed ["Metadata uploaded:"; uri];
                          Printed ["Creating collection..."]; Called create (Some e)] |}
      | (inr made, w6) =>
          let collection := CreateNftOutput.nft made in
          {| outcome := inr collection; final := w6;
             trace := wallet_log text parsed bytes
                      ++ [Called upload None; Printed ["Metadata uploaded:"; uri];
                          Printed ["Creating collection..."]; Called create None;
                          Printed ["✅ Collection created!"];
                          Printed ["Collection Address:"; toBase58 (Nft.address collection)];
                          Printed ["Metadata URI:"; Nft.uri collection]] |}
      end
  end.
Proof.
  intros Hread Hparse Hbytes Hkey Hendpoint metaplex upload.
  unfold exampleCreateCollection; cbn.
  rewrite Hread; cbn. rewrite Hparse; cbn. rewrite Hbytes; cbn. rewrite Hkey; cbn.
  rewrite Hendpoint; cbn.
  subst metaplex upload.
  unfold configured, workflow_document, workflow_collection, create_request, wallet_log; cbn.
  destruct (answer sdk _ w4) as [[e | out] w5]; cbn; [done |].
  destruct (answer sdk _ w5) as [[e | made] w6]; cbn; done.
Qed.

(** C2: in every run of the workflow the create step starts only after a
    publish call that succeeded, and when the publish call throws, the run
    ends with that error and the create step never starts.  The steps are
    really taken: once the wallet is decoded and the endpoint accepted the
    publish call is made, a publish call that succeeds is followed by the
    create step, and a run that succeeds has made the publish call and then
    the create call. *)
Theorem exampleCreateCollection_order sdk (w : World sdk) :
  let r := run sdk exampleCreateCollection w in
  (forall j e, trace r !! j = Some e -> create_step e = true ->
     exists i metaplex metadata,
       (i < j)%nat /\ trace r !! i = Some (Called (nfts_uploadMetadata metaplex metadata) None))
  /\ (forall metaplex metadata err,
        Called (nfts_uploadMetadata metaplex metadata) (Some err) ∈ trace r ->
        outcome r = inl err /\ Forall (fun e => create_step e = false) (trace r))
  /\ (forall w1 w2 w3 w4 text parsed bytes payerKeypair,
        answer sdk (fs_readFileSync "./wallet.json" "utf-8") w = (inr text, w1) ->
        answer sdk (JSON_parse text) w1 = (inr parsed, w2) ->
        answer sdk (Uint8Array_from parsed) w2 = (inr bytes, w3) ->
        answer sdk (Keypair_fromSecretKey bytes) w3 = (inr payerKeypair, w4) ->
        endpoint_error sdk "https://api.devnet.solana.com" = None ->
        exists metaplex metadata thrown,
          trace r !! 4%nat = Some (Called (nfts_uploadMetadata metaplex metadata) thrown))
  /\ (forall i metaplex metadata,
        trace r !! i = Some (Called (nfts_uploadMetadata metaplex metadata) None) ->
        exists input thrown,
          trace r !! (i + 2)%nat = Some (Printed ["Creating collection..."])
          /\ trace r !! (i + 3)%nat = Some (Called (nfts_create metaplex input) thrown))
  /\ (forall collection, outcome r = inr collection ->
        exists metaplex metadata input,
          trace r !! 4%nat = Some (Called (nfts_uploadMetadata metaplex metadata) None)
          /\ trace r !! 7%nat = Some (Called (nfts_create metaplex input) None)).
Proof.
  cbn zeta. split; [| split; [| split]].
  - unfold exampleCreateCollection; cbn. answer_cases.
    all: intros j entry Hj Hstep; index_cases j; try discriminate;
      try (exists 4%nat; eexists _, _; split; [lia | reflexivity]).
  - unfold exampleCreateCollection; cbn. answer_cases.
    all: intros metaplex metadata err Hin; decompose_list_elem_of; simplify_eq;
      (split; [done | by repeat constructor]).
  - intros w1 w2 w3 w4 text parsed bytes payerKeypair Hread Hparse Hbytes Hkey Hendpoint.
    rewrite (exampleCreateCollection_loaded _ _ _ _ _ _ _ _ _ _
               Hread Hparse Hbytes Hkey Hendpoint). cbn zeta.
    destruct (answer sdk _ w4) as [[e | out] w5]; [by eexists _, _, _ |].
    destruct (answer sdk _ w5) as [[e | made] w6]; by eexists _, _, _.
  - unfold exampleCreateCollection; cbn. answer_cases.
    all: split;
      [ intros i metaplex metadata Hi; index_cases i; by eexists _, _
      | intros collection Hok; simplify_eq; by eexists _, _, _ ].
Qed.

(** Two runs of the workflow on the reference double: one where the content
    store rejects the upload (no create step, nothing minted), one where both
    steps go through. *)
Example workflow_publish_rejected :
  let r := run devnet exampleCreateCollection (fresh [] ["addr123"]) in
  outcome r = inl {| kind := PublishError false; detail := "not enough funds to send data" |}
  /\ filter (fun e => create_step e = true) (trace r) = []
  /\ Devnet.mints (final r) = ["addr123"].
Proof. repeat split; vm_compute; reflexivity. Qed.

Example workflow_completes :
  let r := run devnet exampleCreateCollection (fresh ["loc://abc"] ["addr123"]) in
  outcome r = inr (toNft collection_address (minted (create_request (workflow_data "loc://abc"))))
  /\ trace r !! 4%nat
     = Some (Called (nfts_uploadMetadata session
                       {| Metadata.name := "My Hybrid Collection";
                          Metadata.symbol := "MHC";
                          Metadata.description :=
                            "A revolutionary hybrid NFT collection on Solana";
                          Metadata.image := "https://arweave.net/your-image-url";
                          Metadata.external_url := Some "https://yourwebsite.com";
                          Metadata.seller_fee_basis_points := 500;
                          Metadata.properties :=
                            {| Properties.files :=
                                 [ {| File.uri := "https://arweave.net/your-image-url";
                                      File.type := "image/png" |} ];
                               Properties.category := "image";
                               Properties.creators :=
                                 [ {| MetadataCreator.address := "key64";
                                      MetadataCreator.share := 100 |} ] |} |}) None)
  /\ trace r !! 7%nat
     = Some (Called (nfts_create session (create_request (workflow_data "loc://abc"))) None).
Proof. repeat split; vm_compute; reflexivity. Qed.

(** C3, as amended: when the create call throws after a successful publish,
    the workflow ends with exactly the error the create call threw.  The
    locator is not part of what the caller receives; it was passed to the
    create call and printed on the console by the publish step, and that
    printed line is the only record of it. *)
Theorem exampleCreateCollection_create_failure sdk (w : World sdk) metaplex input e :
  let r := run sdk exampleCreateCollection w in
  Called (nfts_create metaplex input) (Some e) ∈ trace r ->
  outcome r = inl e
  /\ Printed ["Metadata uploaded:"; CreateNftInput.uri input] ∈ trace r
  /\ exists metadata, Called (nfts_uploadMetadata metaplex metadata) None ∈ trace r.
Proof.
  unfold exampleCreateCollection; cbn. answer_cases.
  all: intros Hin; decompose_list_elem_of; simplify_eq.
  split; [done |]. split.
  - apply list_elem_of_lookup. by exists 5%nat.
  - eexists. apply list_elem_of_lookup. by exists 4%nat.
Qed.

Lemma exampleCreateCollection_create_failure_witness :
  let r := run devnet exampleCreateCollection (fresh ["loc://abc"] []) in
  outcome r = inl {| kind := LedgerError false; detail := "insufficient funds" |}
  /\ Printed ["Metadata uploaded:"; "loc://abc"] ∈ trace r
  /\ exists metadata, Called (nfts_uploadMetadata session metadata) None ∈ trace r.
Proof.
  apply (exampleCreateCollection_create_failure devnet (fresh ["loc://abc"] []) session
           (create_request
              (workflow_data "loc://abc"))
           {| kind := LedgerError false; detail := "insufficient funds" |}).
  apply list_elem_of_lookup. exists 7%nat. vm_compute. reflexivity.
Defined.

(** C3, counterexample: two runs of the workflow on the reference double
    whose publish steps succeed with different locators and whose create
    steps are rejected.  Both end with the same error, so the locator is
    neither returned nor carried by the error. *)
Lemma exampleCreateCollection_loses_locator :
  let r1 := run devnet exampleCreateCollection (fresh ["loc://abc"] []) in
  let r2 := run devnet exampleCreateCollection (fresh ["loc://xyz"] []) in
  trace r1 !! 5%nat = Some (Printed ["Metadata uploaded:"; "loc://abc"])
  /\ trace r2 !! 5%nat = Some (Printed ["Metadata uploaded:"; "loc://xyz"])
  /\ outcome r1 = inl {| kind := LedgerError false; detail := "insufficient funds" |}
  /\ outcome r2 = outcome r1.
Proof. repeat split; vm_compute; reflexivity. Qed.

(** * Further properties of the module *)

(** ** What the console reports *)

(** X1: the lines the wrappers print on completion are truthful.  The line
    "Metadata uploaded:" with a locator is in the log exactly when the
    publish wrapper returned that locator, and each of the three success
    lines is in the log exactly when its wrapper succeeded. *)
Theorem success_lines_truthful sdk (w : World sdk) metaplex :
  (forall metadata uri,
     let r := run sdk (uploadCollectionMetadata metaplex metadata) w in
     Printed ["Metadata uploaded:"; uri] ∈ trace r <-> outcome r = inr uri)
  /\ (forall collectionData,
        let r := run sdk (createCollection metaplex collectionData) w in
        Printed ["✅ Collection created!"] ∈ trace r <-> exists c, outcome r = inr c)
  /\ (forall collectionAddress nftAddress,
        let r := run sdk (verifyCollection metaplex collectionAddress nftAddress) w in
        Printed ["✅ Collection verified!"] ∈ trace r <-> outcome r = inr tt)
  /\ (forall collectionAddress newUri,
        let r := run sdk (updateCollectionMetadata metaplex collectionAddress newUri) w in
        Printed ["✅ Collection metadata updated!"] ∈ trace r <-> outcome r = inr tt).
Proof.
  repeat split.
  - rewrite uploadCollectionMetadata_run.
    destruct (answer sdk _ w) as [[e | out] w']; cbn; intros Hin;
      decompose_list_elem_of; by simplify_eq.
  - rewrite uploadCollectionMetadata_run.
    destruct (answer sdk _ w) as [[e | out] w']; cbn; [done |].
    intros [= <-]. set_solver.
  - rewrite createCollection_run.
    destruct (answer sdk _ w) as [[e | out] w']; cbn; intros Hin;
      decompose_list_elem_of; simplify_eq. by eexists.
  - rewrite createCollection_run.
    destruct (answer sdk _ w) as [[e | out] w']; cbn; intros [c Hc]; [done |].
    set_solver.
  - rewrite verifyCollection_run. cbn zeta.
    destruct (answer sdk _ w) as [[e | out] w']; cbn; intros Hin;
      decompose_list_elem_of; by simplify_eq.
  - rewrite verifyCollection_run. cbn zeta.
    destruct (answer sdk _ w) as [[e | out] w']; cbn; [done |]. set_solver.
  - rewrite updateCollectionMetadata_run. cbn zeta.
    destruct (answer sdk _ w) as [[e | n] w']; cbn;
      [| destruct (answer sdk _ w') as [[e | out] w'']; cbn];
      intros Hin; decompose_list_elem_of; by simplify_eq.
  - rewrite updateCollectionMetadata_run. cbn zeta.
    destruct (answer sdk _ w) as [[e | n] w']; cbn; [done |].
    destruct (answer sdk _ w') as [[e | out] w'']; cbn; [done |]. set_solver.
Qed.

(** ** Verifying and updating: what reaches the network *)

(** X2: whatever the ledger answers, one invocation of [verifyCollection]
    makes exactly one network call, the verification itself, with the
    candidate as [mintAddress] and the collection as [collectionMintAddress];
    it never looks either address up first.  The run fails exactly when that
    call throws, with the error thrown. *)
Theorem verifyCollection_single_submission sdk (w : World sdk) metaplex
    collectionAddress nftAddress :
  let r := run sdk (verifyCollection metaplex collectionAddress nftAddress) w in
  exists thrown,
    filter (fun e => network_call e = true) (trace r)
      = [Called (nfts_verifyCollection metaplex
                   {| VerifyNftCollectionInput.mintAddress := nftAddress;
                      VerifyNftCollectionInput.collectionMintAddress := collectionAddress |})
                thrown]
    /\ (thrown = None <-> outcome r = inr tt)
    /\ (forall e, thrown = Some e <-> outcome r = inl e).
Proof.
  cbn zeta. rewrite verifyCollection_run. cbn zeta.
  destruct (answer sdk _ w) as [[e | out] w']; cbn.
  - exists (Some e). split; [done |]. split; [done |]. intros e'. split; congruence.
  - exists None. split; [done |]. split; [done |]. intros e'. split; congruence.
Qed.

(** X3: when the lookup resolves the record and the ledger then rejects the
    update, the wrapper fails with the ledger's error.  Exactly one
    transaction was submitted, the update carrying the record just read and
    the new locator as its only overwritten field, and nothing is printed
    after the rejection. *)
Theorem updateCollectionMetadata_rejected sdk (w w1 w2 : World sdk) metaplex
    collectionAddress newUri collection e :
  answer sdk (nfts_findByMint metaplex (find_request collectionAddress)) w
    = (inr collection, w1) ->
  answer sdk (nfts_update metaplex (update_request collection newUri)) w1 = (inl e, w2) ->
  let r := run sdk (updateCollectionMetadata metaplex collectionAddress newUri) w in
  outcome r = inl e
  /\ final r = w2
  /\ filter (fun en => submission en = true) (trace r)
     = [Called (nfts_update metaplex
                  {| UpdateNftInput.nftOrSft := collection;
                     UpdateNftInput.name := None;
                     UpdateNftInput.symbol := None;
                     UpdateNftInput.uri := Some newUri;
                     UpdateNftInput.sellerFeeBasisPoints := None;
                     UpdateNftInput.creators := None;
                     UpdateNftInput.isMutable := None |}) (Some e)]
  /\ last (trace r) = Some (Called (nfts_update metaplex (update_request collection newUri))
                              (Some e)).
Proof.
  intros Hfind Hupdate r. subst r.
  rewrite updateCollectionMetadata_run. cbn zeta. rewrite Hfind, Hupdate. done.
Qed.

Lemma updateCollectionMetadata_rejected_witness :
  let r := run devnet (updateCollectionMetadata session collection_address "loc://xyz") sealed in
  let collection := toNft collection_address (minted (create_request sealed_data)) in
  let e := {| kind := LedgerError false; detail := "data is immutable" |} in
  outcome r = inl e
  /\ final r = sealed
  /\ filter (fun en => submission en = true) (trace r)
     = [Called (nfts_update session
                  {| UpdateNftInput.nftOrSft := collection;
                     UpdateNftInput.name := None;
                     UpdateNftInput.symbol := None;
                     UpdateNftInput.uri := Some "loc://xyz";
                     UpdateNftInput.sellerFeeBasisPoints := None;
                     UpdateNftInput.creators := None;
                     UpdateNftInput.isMutable := None |}) (Some e)]
  /\ last (trace r) = Some (Called (nfts_update session (update_request collection "loc://xyz"))
                              (Some e)).
Proof.
  apply (updateCollectionMetadata_rejected devnet sealed sealed sealed).
  - vm_compute. reflexivity.
  - vm_compute. reflexivity.
Defined.

(** ** The workflow: wallet, retries, data flow *)

(** X4: the workflow touches the network only with a wallet in hand.  Every
    network call in the log comes after the four decoding steps (read
    "./wallet.json" as utf-8, parse, convert to bytes, build the key pair)
    have all succeeded, and if any step that is not a network call throws,
    the run ends with that error and the log holds no network call. *)
Theorem exampleCreateCollection_wallet_first sdk (w : World sdk) :
  let r := run sdk exampleCreateCollection w in
  (forall j e, trace r !! j = Some e -> network_call e = true ->
     (4 <= j)%nat
     /\ exists text parsed bytes,
          take 4 (trace r)
          = [Called (fs_readFileSync "./wallet.json" "utf-8") None;
             Called (JSON_parse text) None;
             Called (Uint8Array_from parsed) None;
             Called (Keypair_fromSecretKey bytes) None])
  /\ (forall c err,
        Called c (Some err) ∈ trace r -> network_call (Called c None) = false ->
        outcome r = inl err /\ Forall (fun e => network_call e = false) (trace r)).
Proof.
  unfold exampleCreateCollection; cbn. answer_cases.
  all: (split;
    [ intros j entry Hj Hstep; index_cases j; try discriminate;
      (split; [lia | by eexists _, _, _])
    | intros c err Hin Hc; decompose_list_elem_of; simplify_eq; try discriminate;
      (split; [done | by repeat constructor]) ]).
Qed.

(** X5: the workflow never retries.  In every run the log holds at most one
    upload call, at most one create call, and at most six external calls in
    all; a run that succeeds holds exactly one upload, one create and six
    external calls. *)
Theorem exampleCreateCollection_no_retry sdk (w : World sdk) :
  let r := run sdk exampleCreateCollection w in
  (length (filter (fun e => upload_call e = true) (trace r)) <= 1)%nat
  /\ (length (filter (fun e => create_call e = true) (trace r)) <= 1)%nat
  /\ (length (filter (fun e => external_call e = true) (trace r)) <= 6)%nat
  /\ (forall collection, outcome r = inr collection ->
        length (filter (fun e => upload_call e = true) (trace r)) = 1%nat
        /\ length (filter (fun e => create_call e = true) (trace r)) = 1%nat
        /\ length (filter (fun e => external_call e = true) (trace r)) = 6%nat).
Proof.
  unfold exampleCreateCollection; cbn. answer_cases.
  all: repeat split; first [ discriminate | vm_compute; lia ].
Qed.

(** X6: the two network calls of the workflow agree with each other and
    with what was loaded.  Once the wallet is decoded and the endpoint
    accepted, the upload is made on the session built for the devnet endpoint
    whose identity is the key pair [Keypair.fromSecretKey] returned; its
    document satisfies the Metadata Document invariants and names that key
    as sole creator.  Any create call of the same run is made on the same
    session, with the document's name, symbol and royalty, that key as sole
    creator with share 100, mutability requested, and as locator the one the
    upload answered, which is also the one the publish step printed. *)
Theorem exampleCreateCollection_consistent sdk (w w1 w2 w3 w4 : World sdk)
    text parsed bytes payerKeypair :
  answer sdk (fs_readFileSync "./wallet.json" "utf-8") w = (inr text, w1) ->
  answer sdk (JSON_parse text) w1 = (inr parsed, w2) ->
  answer sdk (Uint8Array_from parsed) w2 = (inr bytes, w3) ->
  answer sdk (Keypair_fromSecretKey bytes) w3 = (inr payerKeypair, w4) ->
  endpoint_error sdk "https://api.devnet.solana.com" = None ->
  let r := run sdk exampleCreateCollection w in
  let metaplex := configured "https://api.devnet.solana.com" payerKeypair in
  let metadata := workflow_document payerKeypair in
  Metaplex.identity metaplex = Some payerKeypair
  /\ Metaplex.connection metaplex = {| rpcEndpoint := "https://api.devnet.solana.com" |}
  /\ validDocument metadata = true
  /\ Properties.creators (Metadata.properties metadata)
     = [ {| MetadataCreator.address := toBase58 (publicKey payerKeypair);
            MetadataCreator.share := 100 |} ]
  /\ (exists thrown,
        trace r !! 4%nat = Some (Called (nfts_uploadMetadata metaplex metadata) thrown))
  /\ (forall metaplex' metadata' thrown,
        Called (nfts_uploadMetadata metaplex' metadata') thrown ∈ trace r ->
        metaplex' = metaplex /\ metadata' = metadata)
  /\ (forall metaplex' input thrown,
        Called (nfts_create metaplex' input) thrown ∈ trace r ->
        exists out w5,
          answer sdk (nfts_uploadMetadata metaplex metadata) w4 = (inr out, w5)
          /\ metaplex' = metaplex
          /\ input
             = {| CreateNftInput.name := Metadata.name metadata;
                  CreateNftInput.symbol := Metadata.symbol metadata;
                  CreateNftInput.uri := UploadMetadataOutput.uri out;
                  CreateNftInput.sellerFeeBasisPoints :=
                    Metadata.seller_fee_basis_points metadata;
                  CreateNftInput.creators :=
                    [ {| CreatorInput.address := publicKey payerKeypair;
                         CreatorInput.share := 100 |} ];
                  CreateNftInput.isMutable := true;
                  CreateNftInput.isCollection := true;
                  CreateNftInput.collection := None |}
          /\ Printed ["Metadata uploaded:"; UploadMetadataOutput.uri out] ∈ trace r).
Proof.
  intros Hread Hparse Hbytes Hkey Hendpoint r metaplex metadata. subst r.
  rewrite (exampleCreateCollection_loaded _ _ _ _ _ _ _ _ _ _
             Hread Hparse Hbytes Hkey Hendpoint). cbn zeta.
  fold metaplex. fold metadata.
  repeat (split; [reflexivity |]).
  destruct (answer sdk (nfts_uploadMetadata metaplex metadata) w4) as [[e | out] w5];
    [| destruct (answer sdk _ w5) as [[e | made] w6]].
  all: split; [by eexists |]; split.
  all: intros metaplex' other thrown Hin; cbn in Hin;
    decompose_list_elem_of; simplify_eq; try done.
  all: eexists _, _; split; [reflexivity |]; split; [reflexivity |];
    split; [reflexivity |]; apply list_elem_of_lookup; by exists 5%nat.
Qed.

Lemma exampleCreateCollection_consistent_witness :
  let r := run devnet exampleCreateCollection (fresh ["loc://abc"] ["addr123"]) in
  let metaplex := configured "https://api.devnet.solana.com" payer in
  let metadata := workflow_document payer in
  Metaplex.identity metaplex = Some payer
  /\ Metaplex.connection metaplex = {| rpcEndpoint := "https://api.devnet.solana.com" |}
  /\ validDocument metadata = true
  /\ Properties.creators (Metadata.properties metadata)
     = [ {| MetadataCreator.address := toBase58 (publicKey payer);
            MetadataCreator.share := 100 |} ]
  /\ (exists thrown,
        trace r !! 4%nat = Some (Called (nfts_uploadMetadata metaplex metadata) thrown))
  /\ (forall metaplex' metadata' thrown,
        Called (nfts_uploadMetadata metaplex' metadata') thrown ∈ trace r ->
        metaplex' = metaplex /\ metadata' = metadata)
  /\ (forall metaplex' input thrown,
        Called (nfts_create metaplex' input) thrown ∈ trace r ->
        exists out w5,
          answer devnet (nfts_uploadMetadata metaplex metadata) (fresh ["loc://abc"] ["addr123"])
            = (inr out, w5)
          /\ metaplex' = metaplex
          /\ input
             = {| CreateNftInput.name := Metadata.name metadata;
                  CreateNftInput.symbol := Metadata.symbol metadata;
                  CreateNftInput.uri := UploadMetadataOutput.uri out;
                  CreateNftInput.sellerFeeBasisPoints :=
                    Metadata.seller_fee_basis_points metadata;
                  CreateNftInput.creators :=
                    [ {| CreatorInput.address := publicKey payer;
                         CreatorInput.share := 100 |} ];
                  CreateNftInput.isMutable := true;
                  CreateNftInput.isCollection := true;
                  CreateNftInput.collection := None |}
          /\ Printed ["Metadata uploaded:"; UploadMetadataOutput.uri out] ∈ trace r).
Proof.
  apply (exampleCreateCollection_consistent devnet
           (fresh ["loc://abc"] ["addr123"]) (fresh ["loc://abc"] ["addr123"])
           (fresh ["loc://abc"] ["addr123"]) (fresh ["loc://abc"] ["addr123"])
           (fresh ["loc://abc"] ["addr123"])
           wallet_text (JsArray (replicate 64 1)) (replicate 64 1) payer).
  - reflexivity.
  - reflexivity.
  - reflexivity.
  - vm_compute. reflexivity.
  - reflexivity.
Defined.

Section WorkflowRoundTrip.
Variable sdk : Double.

(** The SDK's contract for [create], as for the locator round trip of the
    create wrapper. *)
Hypothesis create_returns_uri : forall metaplex input (w : World sdk) out w',
  answer sdk (nfts_create metaplex input) w = (inr out, w') ->
  Nft.uri (CreateNftOutput.nft out) = CreateNftInput.uri input.

(** X7: end to end, a successful workflow returns a record whose locator is
    the one the content store answered to the upload: the locator of the
    upload's reply is the one printed by the publish step, the one carried
    by the create call, and the one of the record returned. *)
Theorem exampleCreateCollection_roundtrip (w w1 w2 w3 w4 w5 : World sdk)
    text parsed bytes payerKeypair out collection :
  answer sdk (fs_readFileSync "./wallet.json" "utf-8") w = (inr text, w1) ->
  answer sdk (JSON_parse text) w1 = (inr parsed, w2) ->
  answer sdk (Uint8Array_from parsed) w2 = (inr bytes, w3) ->
  answer sdk (Keypair_fromSecretKey bytes) w3 = (inr payerKeypair, w4) ->
  endpoint_error sdk "https://api.devnet.solana.com" = None ->
  answer sdk (nfts_uploadMetadata (configured "https://api.devnet.solana.com" payerKeypair)
                (workflow_document payerKeypair)) w4 = (inr out, w5) ->
  let r := run sdk exampleCreateCollection w in
  outcome r = inr collection ->
  Nft.uri collection = UploadMetadataOutput.uri out
  /\ trace r !! 5%nat = Some (Printed ["Metadata uploaded:"; UploadMetadataOutput.uri out])
  /\ (exists input,
        trace r !! 7%nat
          = Some (Called (nfts_create (configured "https://api.devnet.solana.com" payerKeypair)
                            input) None)
        /\ CreateNftInput.uri input = UploadMetadataOutput.uri out)
  /\ length (trace r) = 11%nat.
Proof.
  intros Hread Hparse Hbytes Hkey Hendpoint Hupload r. subst r.
  rewrite (exampleCreateCollection_loaded _ _ _ _ _ _ _ _ _ _
             Hread Hparse Hbytes Hkey Hendpoint). cbn zeta.
  rewrite Hupload.
  destruct (answer sdk _ w5) as [[e | made] w6] eqn:Hcreate; [done |].
  cbn. intros [= <-].
  rewrite (create_returns_uri _ _ _ _ _ Hcreate).
  split; [done |]. split; [done |]. split; [by eexists | done].
Qed.
End WorkflowRoundTrip.

Lemma exampleCreateCollection_roundtrip_witness :
  let r := run devnet exampleCreateCollection (fresh ["loc://abc"] ["addr123"]) in
  let out := {| UploadMetadataOutput.uri := "loc://abc";
                UploadMetadataOutput.metadata := workflow_document payer |} in
  let collection := toNft collection_address (minted (create_request (workflow_data "loc://abc"))) in
  Nft.uri collection = UploadMetadataOutput.uri out
  /\ trace r !! 5%nat = Some (Printed ["Metadata uploaded:"; UploadMetadataOutput.uri out])
  /\ (exists input,
        trace r !! 7%nat
          = Some (Called (nfts_create (configured "https://api.devnet.solana.com" payer)
                            input) None)
        /\ CreateNftInput.uri input = UploadMetadataOutput.uri out)
  /\ length (trace r) = 11%nat.
Proof.
  apply (exampleCreateCollection_roundtrip devnet devnet_create_keeps_uri
           (fresh ["loc://abc"] ["addr123"]) (fresh ["loc://abc"] ["addr123"])
           (fresh ["loc://abc"] ["addr123"]) (fresh ["loc://abc"] ["addr123"])
           (fresh ["loc://abc"] ["addr123"])
           (Devnet.with_store [] [("loc://abc", workflow_document payer)]
              (fresh ["loc://abc"] ["addr123"]))
           wallet_text (JsArray (replicate 64 1)) (replicate 64 1) payer).
  - reflexivity.
  - reflexivity.
  - reflexivity.
  - vm_compute. reflexivity.
  - reflexivity.
  - reflexivity.
  - vm_compute. reflexivity.
Defined.

(** ** Updates in sequence *)

Lemma with_uri_with_uri (u1 u2 : string) (n : Nft.t) :
  Nft.with_uri u2 (Nft.with_uri u1 n) = Nft.with_uri u2 n.
Proof. reflexivity. Qed.

Section UpdateSequence.
Variable sdk : Double.
Variable queryAccount : World sdk -> PublicKey -> option Nft.t.

(** The SDK's contracts for [findByMint] and [update], as for the frame
    property of a single update. *)
Hypothesis lookup_reads : forall metaplex a (w : World sdk) n w',
  answer sdk (nfts_findByMint metaplex (find_request a)) w = (inr n, w') ->
  w' = w /\ queryAccount w a = Some n /\ Nft.address n = a.

Hypothesis update_overwrites : forall metaplex i (w : World sdk) x w',
  answer sdk (nfts_update metaplex i) w = (inr x, w') ->
  forall b, queryAccount w' b =
            if decide (b = Nft.address (UpdateNftInput.nftOrSft i))
            then Some (overwritten i) else queryAccount w b.

Lemma updateCollectionMetadata_effect (w : World sdk) metaplex collectionAddress newUri :
  outcome (run sdk (updateCollectionMetadata metaplex collectionAddress newUri) w) = inr tt ->
  exists before,
    queryAccount w collectionAddress = Some before
    /\ forall b,
         queryAccount
           (final (run sdk (updateCollectionMetadata metaplex collectionAddress newUri) w)) b
         = if decide (b = collectionAddress)
           then Some (Nft.with_uri newUri before) else queryAccount w b.
Proof.
  rewrite updateCollectionMetadata_run. cbn zeta.
  destruct (answer sdk _ w) as [[e | n] w1] eqn:Hfind; [done |].
  destruct (answer sdk _ w1) as [[e | x] w2] eqn:Hupdate; [done |].
  cbn. intros _.
  destruct (lookup_reads _ _ _ _ _ Hfind) as (-> & Hbefore & Haddress).
  pose proof (update_overwrites _ _ _ _ _ Hupdate) as Hafter. cbn in Hafter.
  exists n. split; [done |]. intros b. by rewrite Hafter, Haddress.
Qed.

(** X8: two updates of the same collection in a row, both accepted, leave
    the record as the second alone would: the locator is the second one,
    every other field is as before the first, and other addresses are
    untouched. *)
Theorem updateCollectionMetadata_last_write_wins (w : World sdk) metaplex
    collectionAddress uri1 uri2 :
  let r := run sdk (updateCollectionMetadata metaplex collectionAddress uri1;;
                    updateCollectionMetadata metaplex collectionAddress uri2) w in
  outcome r = inr tt ->
  exists before,
    queryAccount w collectionAddress = Some before
    /\ queryAccount (final r) collectionAddress = Some (Nft.with_uri uri2 before)
    /\ (forall b, b <> collectionAddress -> queryAccount (final r) b = queryAccount w b)
    /\ length (filter (fun e => submission e = true) (trace r)) = 2%nat.
Proof.
  intros r. subst r. rewrite run_bind. unfold sequel.
  destruct (outcome (run sdk (updateCollectionMetadata metaplex collectionAddress uri1) w))
    as [e | []] eqn:Hfirst; [done |].
  cbn [outcome final trace]. intros Hsecond.
  destruct (updateCollectionMetadata_effect _ _ _ _ Hfirst) as (before & Hbefore & H1).
  destruct (updateCollectionMetadata_effect _ _ _ _ Hsecond) as (middle & Hmiddle & H2).
  rewrite H1, decide_True in Hmiddle by done. injection Hmiddle as <-.
  exists before. split; [done |]. split.
  { by rewrite H2, decide_True, with_uri_with_uri. }
  split.
  { intros b Hb. by rewrite H2, decide_False, H1, decide_False. }
  revert Hfirst Hsecond. rewrite !updateCollectionMetadata_run. cbn zeta.
  destruct (answer sdk _ w) as [[e | n] w1]; [done |].
  destruct (answer sdk _ w1) as [[e | x] w2]; [done |].
  cbn [outcome final trace]. intros _.
  destruct (answer sdk _ w2) as [[e | n'] w3]; [done |].
  destruct (answer sdk _ w3) as [[e | x'] w4]; [done |].
  done.
Qed.

End UpdateSequence.

(** On the reference double, as with the SDK, an update to the locator the
    record already has is refused before anything is sent: the wrapper fails
    after the lookup and the ledger is as it was. *)
Example update_without_change_refused :
  let r := run devnet (updateCollectionMetadata session collection_address "loc://abc")
             settled in
  outcome r = inl {| kind := ValidationError; detail := "NoInstructionsToSendError" |}
  /\ final r = settled
  /\ length (trace r) = 3%nat.
Proof. repeat split; vm_compute; reflexivity. Qed.

Lemma updateCollectionMetadata_last_write_wins_witness :
  let r := run devnet (updateCollectionMetadata session collection_address "loc://xyz";;
                       updateCollectionMetadata session collection_address "loc://final")
             settled in
  exists before,
    devnet_query settled collection_address = Some before
    /\ devnet_query (final r) collection_address = Some (Nft.with_uri "loc://final" before)
    /\ (forall b, b <> collection_address -> devnet_query (final r) b = devnet_query settled b)
    /\ length (filter (fun e => submission e = true) (trace r)) = 2%nat.
Proof.
  apply (updateCollectionMetadata_last_write_wins devnet devnet_query
           devnet_findByMint_reads devnet_update_writes
           settled session collection_address "loc://xyz" "loc://final").
  vm_compute. reflexivity.
Defined.
